(** * The command layer of the in-memory key-value database (app/command.go)

    A shallow embedding of [parseCmd], [executeCommand] and the per-command
    handlers, with the properties of the command interpreter and of the
    transaction machine stated over it.

    Conventions.
    - Go strings are [string] (sequences of bytes).
    - The package-level [db] is passed explicitly: a handler takes the store
      and returns the store it leaves behind.
    - A Go run-time panic (an index out of range) is the outcome [Panic].
    - The clock is read once per run: [now] is the time, in milliseconds,
      the store operations see.
    - Code that lies outside command.go is either modelled from the
      specification (the keyspace operations and the three transaction
      handlers; each such definition says so) or taken as a parameter (the
      list and stream handlers, the snapshot writer and the Unicode tables
      of [strings.ToLower]: class [Collaborators]). *)

From Stdlib Require Import ZArith Ascii.
From stdpp Require Import base option list strings gmap pretty.

(** ** Protocol values *)

Inductive RespType := SimpleString | BulkString | Error | Integer | Array.

#[global] Instance RespType_eq_dec : EqDecision RespType.
Proof. solve_decision. Defined.

(** Modelled from the spec: the declaration of [RespData] is not part of
    command.go.  The fields [Type], [Str], [IsNull] and [Array] are the ones
    the handlers fill in; [Int] carries the payload of the spec's
    [Integer(n)].  A composite literal leaves the fields it does not name at
    their zero value. *)
#[warnings="-register-all"]
Inductive RespData := mkRespData {
  Typ : RespType;
  Str : string;
  Int : Z;
  IsNull : bool;
  Arr : list RespData
}.

(** [RespData{Type: t, Str: s}] *)
Definition resp (t : RespType) (s : string) : RespData := mkRespData t s 0 false [].
(** [RespData{Type: t, IsNull: true}] *)
Definition respNull (t : RespType) : RespData := mkRespData t "" 0 true [].
(** [RespData{Type: Array, Array: l}] *)
Definition respArray (l : list RespData) : RespData := mkRespData Array "" 0 false l.
(** The spec's [Integer(n)]. *)
Definition respInt (n : Z) : RespData := mkRespData Integer "" n false [].

(** ** Commands and sessions *)

Record Command := mkCommand { cmd : string; args : list string }.

(** [ClientConn] without its [net.Conn]. *)
Record ClientConn := mkClientConn {
  transactionQueue : list Command;
  isTransaction : bool
}.

(** ** Outcomes *)

Inductive Result (A : Type) :=
| Ret (a : A)
| Panic
| OutOfFuel.
Arguments Ret {A} a.
Arguments Panic {A}.
Arguments OutOfFuel {A}.

#[global] Instance Result_bind : MBind Result := fun A B f m =>
  match m with
  | Ret a => f a
  | Panic => Panic
  | OutOfFuel => OutOfFuel
  end.

(** [l[i]] on a slice: a panic when [i] is out of range. *)
Definition index {A} (l : list A) (i : nat) : Result A :=
  match l !! i with
  | Some x => Ret x
  | None => Panic
  end.

(** ** Strings *)

Definition digitOf (c : ascii) : option Z :=
  let n := nat_of_ascii c in
  if (48 <=? n)%nat && (n <=? 57)%nat then Some (Z.of_nat (n - 48)) else None.

Fixpoint digits (s : string) (acc : Z) : option Z :=
  match s with
  | EmptyString => Some acc
  | String c s' =>
      match digitOf c with
      | Some v => digits s' (10 * acc + v)
      | None => None
      end
  end.

Definition maxInt : Z := 2 ^ 63 - 1.
Definition minInt : Z := - 2 ^ 63.

(** [strconv.Atoi]: an optional sign, then one decimal digit or more, the
    value within the range of [int]; [None] stands for a non-nil error. *)
Definition Atoi (s : string) : option Z :=
  let '(neg, body) :=
    match s with
    | String "+"%char r => (false, r)
    | String "-"%char r => (true, r)
    | _ => (false, s)
    end in
  match body with
  | EmptyString => None
  | _ =>
      match digits body 0 with
      | Some n =>
          let v := if neg then (- n)%Z else n in
          if (minInt <=? v)%Z && (v <=? maxInt)%Z then Some v else None
      | None => None
      end
  end.

(** ** The keyspace *)

Record StreamEntry := mkStreamEntry {
  entryId : Z * Z;
  entryFields : list (string * string)
}.

Inductive Value :=
| StringValue (s : string)
| ListValue (l : list string)
| StreamValue (es : list StreamEntry).

Record KeyEntry := mkKeyEntry { value : Value; expireAt : option Z }.

(** Modelled from the spec: the store behind the global [db].  command.go
    reads and writes the fields [M], [dir], [dbfilename] and [port]; the
    entries of [M] are the spec's [KeyEntry]. *)
Record DB := mkDB {
  M : gmap string KeyEntry;
  dir : string;
  dbfilename : string;
  port : string
}.

Definition setM (m : gmap string KeyEntry) (d : DB) : DB :=
  mkDB m (dir d) (dbfilename d) (port d).
Definition setDir (v : string) (d : DB) : DB :=
  mkDB (M d) v (dbfilename d) (port d).
Definition setDbfilename (v : string) (d : DB) : DB :=
  mkDB (M d) (dir d) v (port d).

(** ** Parsing a decoded value into a command *)

(** The elements after the first: [None] as soon as one is not a bulk
    string (the loop of [parseCmd] returns the error there). *)
Fixpoint bulkArgs (items : list RespData) : option (list string) :=
  match items with
  | [] => Some []
  | item :: rest =>
      if negb (bool_decide (Typ item = BulkString)) then None
      else option_map (cons (Str item)) (bulkArgs rest)
  end.

(** [parseCmd]; [None] stands for the non-nil error. *)
Definition parseCmd (r : RespData) : option Command :=
  if bool_decide (Typ r = SimpleString) && String.eqb (Str r) "PING"
  then Some (mkCommand "PING" [])
  else if negb (bool_decide (Typ r = Array)) then None
  else
    match Arr r with
    | [] => None
    | first :: rest =>
        if negb (bool_decide (Typ first = BulkString)) then None
        else option_map (mkCommand (Str first)) (bulkArgs rest)
    end.

(** ** Code outside command.go taken as a parameter *)

(** The list and stream handlers and [db.SaveRDB] are called by
    [executeCommand] and defined elsewhere in the package.  A handler
    receives the command and works on the global store; it is taken to
    return or to panic (an XREAD that blocks for ever is not represented).
    [SaveRDB] returns the text of its error, [None] for nil.
    [unicodeToLower] is
    [strings.Map(unicode.ToLower, s)], the path [strings.ToLower] takes on a
    string with a byte outside ASCII; the Unicode tables are not modelled. *)
Class Collaborators := {
  unicodeToLower : string -> string;
  SaveRDB : DB -> option string;
  handleLPushCommand : Command -> DB -> Result (RespData * DB);
  handleRPushCommand : Command -> DB -> Result (RespData * DB);
  handleLPopCommand : Command -> DB -> Result (RespData * DB);
  handleRPopCommand : Command -> DB -> Result (RespData * DB);
  handleLLenCommand : Command -> DB -> Result (RespData * DB);
  handleLRangeCommand : Command -> DB -> Result (RespData * DB);
  handleXAddCommand : Command -> DB -> Result (RespData * DB);
  handleXLenCommand : Command -> DB -> Result (RespData * DB);
  handleXRangeCommand : Command -> DB -> Result (RespData * DB);
  handleXReadCommand : Command -> DB -> Result (RespData * DB)
}.

(** ** Lower case *)

Fixpoint isASCII (s : string) : bool :=
  match s with
  | EmptyString => true
  | String c s' => (nat_of_ascii c <? 128)%nat && isASCII s'
  end.

Definition lowerByte (c : ascii) : ascii :=
  let n := nat_of_ascii c in
  if (65 <=? n)%nat && (n <=? 90)%nat then ascii_of_nat (n + 32) else c.

Fixpoint lowerASCII (s : string) : string :=
  match s with
  | EmptyString => EmptyString
  | String c s' => String (lowerByte c) (lowerASCII s')
  end.

(** [strings.ToLower]: byte by byte on an ASCII string, through the Unicode
    tables otherwise. *)
Definition ToLower `{Collaborators} (s : string) : string :=
  if isASCII s then lowerASCII s else unicodeToLower s.

Section Interpreter.

Context `{Collaborators}.

(** The reading of the clock while a command runs, in milliseconds. *)
Variable now : Z.

(** *** Keyspace operations *)

Definition isExpired (e : KeyEntry) : bool :=
  match expireAt e with
  | Some t => bool_decide (t < now)%Z
  | None => false
  end.

(** Modelled from the spec: lazy expiration.  An entry whose [expireAt] has
    passed is removed before the operation proceeds. *)
Definition resolve (key : string) (d : DB) : DB :=
  match M d !! key with
  | Some e => if isExpired e then setM (delete key (M d)) d else d
  | None => d
  end.

(** Modelled from the spec: [Set(key, value)] without a ttl overwrites the
    key with a string and clears any TTL. *)
Definition Add (key v : string) (d : DB) : DB :=
  setM (<[key := mkKeyEntry (StringValue v) None]> (M d)) d.

(** Modelled from the spec: [Set(key, value, ttl)] sets
    [expireAt = now + ttl]. *)
Definition Addex (key v : string) (ms : Z) (d : DB) : DB :=
  setM (<[key := mkKeyEntry (StringValue v) (Some (now + ms)%Z)]> (M d)) d.

(** Modelled from the spec: [Get(key)].  The call site receives one
    [*string] and no error, so a key that holds no string reads as nil. *)
Definition Get (key : string) (d : DB) : option string * DB :=
  let d' := resolve key d in
  (match M d' !! key with
   | Some (mkKeyEntry (StringValue s) _) => Some s
   | _ => None
   end, d').

(** Modelled from the spec: [Delete(key) -> bool] (existed). *)
Definition Delete (key : string) (d : DB) : bool * DB :=
  let d' := resolve key d in
  (bool_decide (is_Some (M d' !! key)), setM (delete key (M d')) d').

(** Modelled from the spec: [Incr(key)].  The call site receives the error
    alone ([None] for nil).  An absent key is created with value 1; a string
    that does not parse as a base-10 integer is an error. *)
Definition Incr (key : string) (d : DB) : option string * DB :=
  let d' := resolve key d in
  match M d' !! key with
  | None => (None, setM (<[key := mkKeyEntry (StringValue "1") None]> (M d')) d')
  | Some (mkKeyEntry (StringValue s) ex) =>
      match Atoi s with
      | Some n =>
          (None, setM (<[key := mkKeyEntry (StringValue (pretty (n + 1)%Z)) ex]> (M d')) d')
      | None => (Some "ERR value is not an integer or out of range", d')
      end
  | Some _ =>
      (Some "WRONGTYPE Operation against a key holding the wrong kind of value", d')
  end.

(** Modelled from the spec: [TypeOf(key)], as the [*string] the call site
    of [db.GetType] receives. *)
Definition GetType (key : string) (d : DB) : option string * DB :=
  let d' := resolve key d in
  (match M d' !! key with
   | Some (mkKeyEntry (StringValue _) _) => Some "string"
   | Some (mkKeyEntry (ListValue _) _) => Some "list"
   | Some (mkKeyEntry (StreamValue _) _) => Some "stream"
   | None => None
   end, d').

(** *** Handlers of command.go *)

Definition handleTypeCommand (c : Command) (d : DB) : Result (RespData * DB) :=
  if negb (length (args c) =? 1)%nat
  then Ret (resp Error "ERR wrong number of arguments for 'type' command", d)
  else
    key ← index (args c) 0;
    let '(val, d') := GetType key d in
    match val with
    | None => Ret (resp SimpleString "none", d')
    | Some v => Ret (resp SimpleString v, d')
    end.

Definition handleSetCommand (c : Command) (d : DB) : Result (RespData * DB) :=
  if (length (args c) =? 2)%nat then
    key ← index (args c) 0;
    v ← index (args c) 1;
    Ret (resp SimpleString "OK", Add key v d)
  else if (length (args c) =? 4)%nat then
    opt ← index (args c) 2;
    if String.eqb (ToLower opt) "px" then
      ms ← index (args c) 3;
      match Atoi ms with
      | None => Ret (resp Error "wrong numeric value for expiry", d)
      | Some num =>
          key ← index (args c) 0;
          v ← index (args c) 1;
          Ret (resp SimpleString "OK", Addex key v num d)
      end
    else Ret (resp Error "ERR wrong number of arguments for 'set' command", d)
  else Ret (resp Error "ERR wrong number of arguments for 'set' command", d).

Definition handleGetCommand (c : Command) (d : DB) : Result (RespData * DB) :=
  if negb (length (args c) =? 1)%nat
  then Ret (resp Error "ERR wrong number of arguments for 'get' command", d)
  else
    key ← index (args c) 0;
    let '(val, d') := Get key d in
    match val with
    | None => Ret (respNull BulkString, d')
    | Some v => Ret (resp BulkString v, d')
    end.

Definition handleConfigGet (param : string) (d : DB) : RespData :=
  if String.eqb param "dir" then
    respArray [resp BulkString "dir"; resp BulkString (dir d)]
  else if String.eqb param "dbfilename" then
    respArray [resp BulkString "dbfilename"; resp BulkString (dbfilename d)]
  else if String.eqb param "port" then
    respArray [resp BulkString "port"; resp BulkString (port d)]
  else respNull Array.

Definition handleConfigSet (param v : string) (d : DB) : RespData * DB :=
  if String.eqb param "dir" then (resp SimpleString "OK", setDir v d)
  else if String.eqb param "dbfilename" then (resp SimpleString "OK", setDbfilename v d)
  else (resp Error "ERR unsupported config parameter", d).

Definition handleConfigCommand (c : Command) (d : DB) : Result (RespData * DB) :=
  if (length (args c) <? 2)%nat
  then Ret (resp Error "ERR wrong number of arguments for config command", d)
  else
    sub ← index (args c) 0;
    if String.eqb (ToLower sub) "get" then
      param ← index (args c) 1;
      Ret (handleConfigGet param d, d)
    else if String.eqb (ToLower sub) "set" then
      param ← index (args c) 1;
      v ← index (args c) 2;
      Ret (handleConfigSet param v d)
    else Ret (resp Error "ERR unknown config subcommand", d).

(** The keys of [db.M] in the order [range] yields them.  Go leaves that
    order unspecified; the embedding takes the order of [map_to_list], and
    the properties below do not depend on it. *)
Definition rangeKeys (m : gmap string KeyEntry) : list string := (map_to_list m).*1.

(** [handleKeysCommand] (the [fmt.Println] of each key to the standard
    output is left out). *)
Definition handleKeysCommand (c : Command) (d : DB) : Result (RespData * DB) :=
  if negb (length (args c) =? 1)%nat
  then Ret (resp Error "ERR wrong number of arguments for 'keys' command", d)
  else
    let keys := resp BulkString <$> rangeKeys (M d) in
    if (length keys =? 0)%nat then Ret (respNull Array, d)
    else Ret (respArray keys, d).

Definition handleIncrCommand (c : Command) (d : DB) : Result (RespData * DB) :=
  if negb (length (args c) =? 1)%nat
  then Ret (resp Error "ERR wrong number of arguments for 'incr' command", d)
  else
    key ← index (args c) 0;
    let '(err, d') := Incr key d in
    match err with
    | Some e => Ret (resp Error e, d')
    | None => Ret (resp SimpleString "OK", d')
    end.

Definition handleDeleteCommand (c : Command) (d : DB) : Result (RespData * DB) :=
  if negb (length (args c) =? 1)%nat
  then Ret (resp Error "ERR wrong number of arguments for 'delete' command", d)
  else
    key ← index (args c) 0;
    let '(_, d') := Delete key d in
    Ret (resp SimpleString "OK", d').

(** *** The transaction handlers *)

(** Modelled from the spec: [handleMultiCommand].  Normal to Queuing with
    reply OK; MULTI while already Queuing is an error reply and no state
    change.  The text of the error is not fixed by the spec. *)
Definition handleMultiCommand (c : Command) (clientConn : ClientConn)
  : RespData * ClientConn :=
  if isTransaction clientConn
  then (resp Error "ERR MULTI calls can not be nested", clientConn)
  else (resp SimpleString "OK", mkClientConn (transactionQueue clientConn) true).

(** Modelled from the spec: [handleDiscardCommand].  Queuing to Normal, the
    queue cleared, nothing executed, reply OK; from Normal an error reply. *)
Definition handleDiscardCommand (clientConn : ClientConn) : RespData * ClientConn :=
  if isTransaction clientConn
  then (resp SimpleString "OK", mkClientConn [] false)
  else (resp Error "ERR DISCARD without MULTI", clientConn).

Section Replay.

(** [executeCommand] as the replay calls it. *)
Variable run :
  Command -> ClientConn -> bool -> DB -> Result (RespData * ClientConn * DB).

(** The queued commands executed in their original order, each with
    [context = true], the replies collected in that order. *)
Fixpoint replayQueue (q : list Command) (clientConn : ClientConn) (d : DB)
  : Result (list RespData * ClientConn * DB) :=
  match q with
  | [] => Ret ([], clientConn, d)
  | c :: q' =>
      '(r, conn1, d1) ← run c clientConn true d;
      '(rs, conn2, d2) ← replayQueue q' conn1 d1;
      Ret (r :: rs, conn2, d2)
  end.

(** Modelled from the spec: [handleExecCommand].  Queuing to Normal: every
    queued command is executed in original order, the reply is the array of
    the individual replies in order, the queue is cleared; from Normal an
    error reply. *)
Definition handleExecCommand (clientConn : ClientConn) (d : DB)
  : Result (RespData * ClientConn * DB) :=
  if negb (isTransaction clientConn)
  then Ret (resp Error "ERR EXEC without MULTI", clientConn, d)
  else
    '(results, conn', d') ← replayQueue (transactionQueue clientConn) clientConn d;
    Ret (respArray results, mkClientConn [] false, d').

End Replay.

(** *** Dispatch *)

(** A handler that does not see the session leaves it as it is. *)
Definition keepConn (clientConn : ClientConn) (r : Result (RespData * DB))
  : Result (RespData * ClientConn * DB) :=
  '(reply, d) ← r; Ret (reply, clientConn, d).

(** [executeCommand].  [fuel] bounds the depth of the calls that a replay by
    EXEC makes back into [executeCommand]; no other path consumes it. *)
Fixpoint executeCommand (fuel : nat) (c : Command) (clientConn : ClientConn)
    (context : bool) (d : DB) {struct fuel} : Result (RespData * ClientConn * DB) :=
  let name := ToLower (cmd c) in
  if String.eqb name "multi" then
    let '(reply, conn') := handleMultiCommand c clientConn in Ret (reply, conn', d)
  else if String.eqb name "exec" then
    handleExecCommand
      (match fuel with
       | O => fun _ _ _ _ => OutOfFuel
       | S fuel' => executeCommand fuel'
       end) clientConn d
  else if String.eqb name "discard" then
    let '(reply, conn') := handleDiscardCommand clientConn in Ret (reply, conn', d)
  else if isTransaction clientConn && negb context then
    Ret (resp SimpleString "QUEUED",
         mkClientConn (transactionQueue clientConn ++ [c]) (isTransaction clientConn),
         d)
  else if String.eqb name "ping" then Ret (resp SimpleString "PONG", clientConn, d)
  else if String.eqb name "echo" then
    msg ← index (args c) 0; Ret (resp BulkString msg, clientConn, d)
  else if String.eqb name "set" then keepConn clientConn (handleSetCommand c d)
  else if String.eqb name "delete" then keepConn clientConn (handleDeleteCommand c d)
  else if String.eqb name "get" then keepConn clientConn (handleGetCommand c d)
  else if String.eqb name "save" then
    match SaveRDB d with
    | Some err => Ret (resp Error ("ERR " +:+ err), clientConn, d)
    | None => Ret (resp SimpleString "OK", clientConn, d)
    end
  else if String.eqb name "config" then keepConn clientConn (handleConfigCommand c d)
  else if String.eqb name "keys" then keepConn clientConn (handleKeysCommand c d)
  else if String.eqb name "info" then Ret (resp BulkString "role:master", clientConn, d)
  else if String.eqb name "incr" then keepConn clientConn (handleIncrCommand c d)
  else if String.eqb name "lpush" then keepConn clientConn (handleLPushCommand c d)
  else if String.eqb name "rpush" then keepConn clientConn (handleRPushCommand c d)
  else if String.eqb name "lpop" then keepConn clientConn (handleLPopCommand c d)
  else if String.eqb name "rpop" then keepConn clientConn (handleRPopCommand c d)
  else if String.eqb name "llen" then keepConn clientConn (handleLLenCommand c d)
  else if String.eqb name "lrange" then keepConn clientConn (handleLRangeCommand c d)
  else if String.eqb name "type" then keepConn clientConn (handleTypeCommand c d)
  else if String.eqb name "xadd" then keepConn clientConn (handleXAddCommand c d)
  else if String.eqb name "xlen" then keepConn clientConn (handleXLenCommand c d)
  else if String.eqb name "xrange" then keepConn clientConn (handleXRangeCommand c d)
  else if String.eqb name "xread" then keepConn clientConn (handleXReadCommand c d)
  else Ret (resp Error ("ERR unknown command '" +:+ cmd c +:+ "'"), clientConn, d).

(** The replies of one connection: [handleCommand] passes each request to
    [executeCommand] with [context = false], on the session and the store
    the request before it left.  What [handleCommand] then writes to the
    connection is outside this development. *)
Fixpoint runSession (fuel : nat) (reqs : list Command) (clientConn : ClientConn) (d : DB)
  : Result (list RespData * ClientConn * DB) :=
  match reqs with
  | [] => Ret ([], clientConn, d)
  | c :: rest =>
      '(r, conn1, d1) ← executeCommand fuel c clientConn false d;
      '(rs, conn2, d2) ← runSession fuel rest conn1 d1;
      Ret (r :: rs, conn2, d2)
  end.

End Interpreter.

Arguments executeCommand {_} now fuel c clientConn context d.

(** ** Vocabulary of the properties *)

(** The form of an arity error. *)
Definition wrongArity (name : string) : RespData :=
  resp Error ("ERR wrong number of arguments for '" +:+ name +:+ "' command").

(** A command is handed to a handler (and not queued) when the session is
    not in a transaction or the call is a replay. *)
Definition executesNow (clientConn : ClientConn) (context : bool) : Prop :=
  isTransaction clientConn && negb context = false.

Definition isBulk (r : RespData) : Prop := Typ r = BulkString.

(** The command under its all-lowercase name. *)
Definition lowered `{Collaborators} (c : Command) : Command :=
  mkCommand (ToLower (cmd c)) (args c).

(** The names of the first switch of [executeCommand]. *)
Definition controlNames : list string := ["multi"; "exec"; "discard"].

(** The names whose handling is written in command.go or, for the three
    control commands, modelled above. *)
Definition handledInCommandGo : list string :=
  ["multi"; "exec"; "discard"; "ping"; "echo"; "set"; "delete"; "get"; "save";
   "config"; "keys"; "info"; "incr"; "type"].

(** The handler outside command.go that the second switch selects. *)
Definition collaborator `{Collaborators} (name : string)
  : option (Command -> DB -> Result (RespData * DB)) :=
  if String.eqb name "lpush" then Some handleLPushCommand
  else if String.eqb name "rpush" then Some handleRPushCommand
  else if String.eqb name "lpop" then Some handleLPopCommand
  else if String.eqb name "rpop" then Some handleRPopCommand
  else if String.eqb name "llen" then Some handleLLenCommand
  else if String.eqb name "lrange" then Some handleLRangeCommand
  else if String.eqb name "xadd" then Some handleXAddCommand
  else if String.eqb name "xlen" then Some handleXLenCommand
  else if String.eqb name "xrange" then Some handleXRangeCommand
  else if String.eqb name "xread" then Some handleXReadCommand
  else None.

(** Concrete stores, sessions and replies. *)
Definition emptyDB : DB := mkDB ∅ "/tmp" "dump.rdb" "6379".
Definition normalConn : ClientConn := mkClientConn [] false.
Definition queuingConn : ClientConn := mkClientConn [] true.
Definition okReply : RespData := resp SimpleString "OK".
Definition queuedReply : RespData := resp SimpleString "QUEUED".

(** MULTI; INCR k; INCR k; EXEC *)
Definition incrTwice (k : string) : list Command :=
  [mkCommand "MULTI" []; mkCommand "INCR" [k]; mkCommand "INCR" [k]; mkCommand "EXEC" []].

(** ** The writer *)

(** The calls [handleCommand] makes on its [*RESPreader].  The encoder is
    outside command.go: a reply written is recorded as the method called
    and the argument it received. *)
Inductive WireCall :=
| CallWrite (r : RespData)
| CallWriteArray (elems : list RespData).

Section Wire.
Context `{Collaborators}.
Variable now : Z.

(** [handleConfigGetResponse]: the call it makes on the writer. *)
Definition handleConfigGetResponse (c : Command) (d : DB) : Result WireCall :=
  param ← index (args c) 1;
  let result := handleConfigGet param d in
  if bool_decide (Typ result = Array) then Ret (CallWriteArray (Arr result))
  else Ret (CallWrite result).

(** [handleCommand]: [wire] is what has been written on the connection so
    far, the result holds what has been written when it returns. *)
Definition handleCommand (fuel : nat) (c : Command) (clientConn : ClientConn) (d : DB)
    (wire : list WireCall) : Result (list WireCall * ClientConn * DB) :=
  '(result, conn', d') ← executeCommand now fuel c clientConn false d;
  let standard :=
    if bool_decide (Typ result = Array) && (0 <? length (Arr result))%nat
    then Ret (wire ++ [CallWriteArray (Arr result)], conn', d')
    else Ret (wire ++ [CallWrite result], conn', d') in
  if String.eqb (ToLower (cmd c)) "config" then
    sub ← index (args c) 0;
    if String.eqb (ToLower sub) "get" then
      w ← handleConfigGetResponse c d';
      Ret (wire ++ [w], conn', d')
    else standard
  else standard.

End Wire.

(** ** Further vocabulary *)

(** A request as a client sends it: the array of the name and the arguments,
    each a bulk string. *)
Definition requestOf (c : Command) : RespData :=
  respArray (resp BulkString (cmd c) :: (resp BulkString <$> args c)).

(** Every name the two switches of [executeCommand] test for. *)
Definition knownNames : list string :=
  ["multi"; "exec"; "discard"; "ping"; "echo"; "set"; "delete"; "get"; "save";
   "config"; "keys"; "info"; "incr"; "lpush"; "rpush"; "lpop"; "rpop"; "llen";
   "lrange"; "type"; "xadd"; "xlen"; "xrange"; "xread"].

(** The reply of the default case. *)
Definition unknownCommand (name : string) : RespData :=
  resp Error ("ERR unknown command '" +:+ name +:+ "'").

(** ** Examples *)

Example Atoi_samples :
  Atoi "100" = Some 100%Z /\ Atoi "-7" = Some (-7)%Z /\ Atoi "+7" = Some 7%Z /\
  Atoi "" = None /\ Atoi "-" = None /\ Atoi "1x" = None /\
  Atoi "9223372036854775808" = None /\ Atoi "-9223372036854775808" = Some minInt.
Proof. repeat split; reflexivity. Qed.

Example pretty_samples : pretty 12%Z = "12" /\ pretty (-3)%Z = "-3" /\ pretty 0%Z = "0".
Proof. repeat split; reflexivity. Qed.

Example parseCmd_get :
  parseCmd (respArray [resp BulkString "GET"; resp BulkString "k"])
  = Some (mkCommand "GET" ["k"]).
Proof. reflexivity. Qed.

Section Examples.
Context `{Collaborators}.
Variable now : Z.

Example ToLower_mixed : ToLower "CoNfIg-9" = "config-9".
Proof. reflexivity. Qed.

Example ping_pong :
  executeCommand now 0 (mkCommand "PiNg" []) normalConn false emptyDB
  = Ret (resp SimpleString "PONG", normalConn, emptyDB).
Proof. reflexivity. Qed.

Example set_then_get :
  runSession now 0 [mkCommand "SET" ["k"; "v"]; mkCommand "GET" ["k"]] normalConn emptyDB
  = Ret ([okReply; resp BulkString "v"], normalConn, Add "k" "v" emptyDB).
Proof. vm_compute. reflexivity. Qed.

Example set_px_rejects_a_non_number :
  executeCommand now 0 (mkCommand "set" ["k"; "v"; "PX"; "soon"]) normalConn false emptyDB
  = Ret (resp Error "wrong numeric value for expiry", normalConn, emptyDB).
Proof. reflexivity. Qed.

Example discard_drops_the_queue :
  runSession now 0 [mkCommand "multi" []; mkCommand "set" ["k"; "v"]; mkCommand "discard" []]
    normalConn emptyDB
  = Ret ([okReply; queuedReply; okReply], normalConn, emptyDB).
Proof. vm_compute. reflexivity. Qed.

End Examples.

(** ** Strings and dispatch *)

Lemma eqb_neq_false (a b : string) : a <> b -> String.eqb a b = false.
Proof. intros Hne. by apply String.eqb_neq. Qed.

Lemma not_elem_of_literals (s : string) (l : list string) :
  forallb (fun t => negb (String.eqb s t)) l = true -> s ∉ l.
Proof.
  induction l as [|t l IH]; cbn [forallb]; intros Hb Hin.
  - by apply elem_of_nil in Hin.
  - apply andb_prop in Hb as [Ht Hl].
    apply elem_of_cons in Hin as [-> | Hin]; [|by apply IH].
    by rewrite String.eqb_refl in Ht.
Qed.

Section Dispatch.
Context `{Collaborators}.
Variable now : Z.

(** The names the switches test for are their own lower case. *)
Lemma handled_name_is_lower (n : string) : n ∈ handledInCommandGo -> ToLower n = n.
Proof.
  unfold handledInCommandGo. intros Hin.
  repeat (apply elem_of_cons in Hin as [-> | Hin]); try reflexivity.
  by apply elem_of_nil in Hin.
Qed.

Lemma collaborator_name_is_lower (n : string) h :
  collaborator n = Some h -> ToLower n = n.
Proof.
  unfold collaborator. intros Hh.
  repeat match type of Hh with
  | (if String.eqb ?n ?lit then _ else _) = _ =>
      let E := fresh "E" in
      destruct (String.eqb n lit) eqn:E; [apply String.eqb_eq in E; by subst|]
  end.
  discriminate.
Qed.

(** Each case of the two switches, selected by the lower-cased name. *)

Local Ltac control :=
  let Hn := fresh in
  intros Hn;
  match goal with |- executeCommand _ ?fuel _ _ _ _ = _ => destruct fuel end;
  cbn [executeCommand]; rewrite Hn; reflexivity.

Local Ltac dispatch :=
  let Hn := fresh in let Hq := fresh in
  intros Hn Hq;
  match goal with |- executeCommand _ ?fuel _ _ _ _ = _ => destruct fuel end;
  cbn [executeCommand]; rewrite Hn, Hq; reflexivity.

Lemma dispatch_multi fuel c clientConn context d :
  ToLower (cmd c) = "multi" ->
  executeCommand now fuel c clientConn context d
  = (let '(reply, conn') := handleMultiCommand c clientConn in Ret (reply, conn', d)).
Proof. control. Qed.

Lemma dispatch_exec fuel c clientConn context d :
  ToLower (cmd c) = "exec" ->
  executeCommand now fuel c clientConn context d
  = handleExecCommand
      (match fuel with
       | O => fun _ _ _ _ => OutOfFuel
       | S fuel' => executeCommand now fuel'
       end) clientConn d.
Proof. control. Qed.

Lemma dispatch_discard fuel c clientConn context d :
  ToLower (cmd c) = "discard" ->
  executeCommand now fuel c clientConn context d
  = (let '(reply, conn') := handleDiscardCommand clientConn in Ret (reply, conn', d)).
Proof. control. Qed.

Lemma dispatch_queued fuel c clientConn d :
  isTransaction clientConn = true ->
  ToLower (cmd c) ∉ controlNames ->
  executeCommand now fuel c clientConn false d
  = Ret (resp SimpleString "QUEUED",
         mkClientConn (transactionQueue clientConn ++ [c]) true, d).
Proof.
  intros Htx Hn.
  assert (ToLower (cmd c) <> "multi" /\ ToLower (cmd c) <> "exec"
          /\ ToLower (cmd c) <> "discard") as (Hm & He & Hd)
    by (repeat split; intros E; apply Hn; rewrite E; repeat constructor).
  apply eqb_neq_false in Hm, He, Hd.
  destruct fuel; cbn [executeCommand]; rewrite Hm, He, Hd, Htx; reflexivity.
Qed.

Lemma dispatch_ping fuel c clientConn context d :
  ToLower (cmd c) = "ping" -> executesNow clientConn context ->
  executeCommand now fuel c clientConn context d
  = Ret (resp SimpleString "PONG", clientConn, d).
Proof. dispatch. Qed.

Lemma dispatch_echo fuel c clientConn context d :
  ToLower (cmd c) = "echo" -> executesNow clientConn context ->
  executeCommand now fuel c clientConn context d
  = (msg ← index (args c) 0; Ret (resp BulkString msg, clientConn, d)).
Proof. dispatch. Qed.

Lemma dispatch_set fuel c clientConn context d :
  ToLower (cmd c) = "set" -> executesNow clientConn context ->
  executeCommand now fuel c clientConn context d
  = keepConn clientConn (handleSetCommand now c d).
Proof. dispatch. Qed.

Lemma dispatch_delete fuel c clientConn context d :
  ToLower (cmd c) = "delete" -> executesNow clientConn context ->
  executeCommand now fuel c clientConn context d
  = keepConn clientConn (handleDeleteCommand now c d).
Proof. dispatch. Qed.

Lemma dispatch_get fuel c clientConn context d :
  ToLower (cmd c) = "get" -> executesNow clientConn context ->
  executeCommand now fuel c clientConn context d
  = keepConn clientConn (handleGetCommand now c d).
Proof. dispatch. Qed.

Lemma dispatch_save fuel c clientConn context d :
  ToLower (cmd c) = "save" -> executesNow clientConn context ->
  executeCommand now fuel c clientConn context d
  = match SaveRDB d with
    | Some err => Ret (resp Error ("ERR " +:+ err), clientConn, d)
    | None => Ret (resp SimpleString "OK", clientConn, d)
    end.
Proof. dispatch. Qed.

Lemma dispatch_config fuel c clientConn context d :
  ToLower (cmd c) = "config" -> executesNow clientConn context ->
  executeCommand now fuel c clientConn context d
  = keepConn clientConn (handleConfigCommand c d).
Proof. dispatch. Qed.

Lemma dispatch_keys fuel c clientConn context d :
  ToLower (cmd c) = "keys" -> executesNow clientConn context ->
  executeCommand now fuel c clientConn context d
  = keepConn clientConn (handleKeysCommand c d).
Proof. dispatch. Qed.

Lemma dispatch_info fuel c clientConn context d :
  ToLower (cmd c) = "info" -> executesNow clientConn context ->
  executeCommand now fuel c clientConn context d
  = Ret (resp BulkString "role:master", clientConn, d).
Proof. dispatch. Qed.

Lemma dispatch_incr fuel c clientConn context d :
  ToLower (cmd c) = "incr" -> executesNow clientConn context ->
  executeCommand now fuel c clientConn context d
  = keepConn clientConn (handleIncrCommand now c d).
Proof. dispatch. Qed.

Lemma dispatch_type fuel c clientConn context d :
  ToLower (cmd c) = "type" -> executesNow clientConn context ->
  executeCommand now fuel c clientConn context d
  = keepConn clientConn (handleTypeCommand now c d).
Proof. dispatch. Qed.

Lemma dispatch_collaborator fuel c clientConn context d h :
  collaborator (ToLower (cmd c)) = Some h -> executesNow clientConn context ->
  executeCommand now fuel c clientConn context d = keepConn clientConn (h c d).
Proof.
  intros Hh Hq. unfold collaborator in Hh.
  repeat match type of Hh with
  | (if String.eqb ?n ?lit then _ else _) = _ =>
      let E := fresh "E" in
      destruct (String.eqb n lit) eqn:E;
      [ apply String.eqb_eq in E; injection Hh as <-;
        destruct fuel; cbn [executeCommand]; rewrite E, Hq; reflexivity
      | ]
  end.
  discriminate.
Qed.

(** *** The store operations the proofs step through *)

Lemma Incr_fresh k d :
  M d !! k = None ->
  Incr now k d = (None, setM (<[k := mkKeyEntry (StringValue "1") None]> (M d)) d).
Proof. intros E. unfold Incr, resolve. rewrite E. rewrite E. reflexivity. Qed.

Lemma Incr_string k s n d :
  M d !! k = Some (mkKeyEntry (StringValue s) None) ->
  Atoi s = Some n ->
  Incr now k d
  = (None, setM (<[k := mkKeyEntry (StringValue (pretty (n + 1)%Z)) None]> (M d)) d).
Proof.
  intros E Ha. unfold Incr, resolve. rewrite E. cbn [isExpired expireAt].
  rewrite E, Ha. reflexivity.
Qed.

Lemma handleKeysCommand_one_argument name pattern d :
  handleKeysCommand (mkCommand name [pattern]) d
  = Ret (if decide (M d = ∅) then respNull Array
         else respArray (resp BulkString <$> rangeKeys (M d)), d).
Proof.
  unfold handleKeysCommand. cbn [args length Nat.eqb negb].
  unfold rangeKeys. rewrite !length_fmap.
  destruct (decide (M d = ∅)) as [E|E].
  - rewrite E, map_to_list_empty. reflexivity.
  - destruct (map_to_list (M d)) eqn:El; [|reflexivity].
    apply map_to_list_empty_iff in El. contradiction.
Qed.

Lemma rangeKeys_spec (m : gmap string KeyEntry) :
  NoDup (rangeKeys m) /\ forall k, k ∈ rangeKeys m <-> is_Some (m !! k).
Proof.
  split; [apply NoDup_fst_map_to_list|].
  intros k. unfold rangeKeys. rewrite list_elem_of_fmap. split.
  - intros [[k' e] [-> Hin]]. apply elem_of_map_to_list in Hin. by exists e.
  - intros [e He]. exists (k, e). split; [done|]. by apply elem_of_map_to_list.
Qed.

End Dispatch.

(** ** The transaction machine *)

Section Transactions.
Context `{Collaborators}.
Variable now : Z.

(** C1, as the code has it.  On a key the store does not hold, the session
    MULTI; INCR k; INCR k; EXEC is answered OK, QUEUED, QUEUED and then the
    array of the two replayed replies in order.  Each replayed INCR replies
    with the simple string OK: the EXEC reply is [OK, OK].  The session ends
    in the Normal state with an empty queue, and the key holds "2". *)
Theorem exec_of_two_incr_replies_OK_OK (fuel : nat) (k : string) (d : DB) :
  M d !! k = None ->
  runSession now (S fuel) (incrTwice k) normalConn d
  = Ret ([okReply; queuedReply; queuedReply; respArray [okReply; okReply]],
         normalConn,
         setM (<[k := mkKeyEntry (StringValue "2") None]> (M d)) d).
Proof.
  intros Hk.
  assert (ToLower "INCR" ∉ controlNames) as Hincr
    by (by apply not_elem_of_literals).
  unfold incrTwice. cbn [runSession].
  rewrite dispatch_multi by reflexivity.
  cbn [handleMultiCommand normalConn isTransaction transactionQueue mbind Result_bind].
  rewrite dispatch_queued by done.
  cbn [mbind Result_bind transactionQueue app].
  rewrite dispatch_queued by done.
  cbn [mbind Result_bind transactionQueue app].
  rewrite dispatch_exec by reflexivity.
  unfold handleExecCommand. cbn [isTransaction negb transactionQueue replayQueue].
  rewrite dispatch_incr by reflexivity.
  unfold handleIncrCommand at 1.
  cbn [args length Nat.eqb negb index lookup list_lookup mbind Result_bind].
  rewrite Incr_fresh by done.
  cbn [keepConn mbind Result_bind].
  rewrite dispatch_incr by reflexivity.
  unfold handleIncrCommand.
  cbn [args length Nat.eqb negb index lookup list_lookup mbind Result_bind].
  erewrite Incr_string; [| cbn [M setM]; apply lookup_insert_eq | reflexivity].
  cbn [keepConn mbind Result_bind M setM].
  rewrite insert_insert_eq. reflexivity.
Qed.

(** C3.  In the Queuing state, a command whose lower-cased name is none of
    multi, exec and discard is appended unchanged at the end of the session's
    queue, the keyspace is untouched and the reply is the simple string
    QUEUED. *)
Theorem queuing_appends_and_replies_QUEUED
    (fuel : nat) (c : Command) (clientConn : ClientConn) (d : DB) :
  isTransaction clientConn = true ->
  ToLower (cmd c) <> "multi" ->
  ToLower (cmd c) <> "exec" ->
  ToLower (cmd c) <> "discard" ->
  executeCommand now fuel c clientConn false d
  = Ret (resp SimpleString "QUEUED",
         mkClientConn (transactionQueue clientConn ++ [c]) true, d).
Proof.
  intros Htx Hm He Hd.
  apply eqb_neq_false in Hm, He, Hd.
  destruct fuel; cbn [executeCommand]; rewrite Hm, He, Hd, Htx; reflexivity.
Qed.

(** C2.  ECHO without an argument and CONFIG SET without a value do not
    return a reply: [executeCommand] indexes past the end of the arguments
    and panics. *)
Theorem echo_and_config_set_panic (fuel : nat) (q : list Command) (d : DB) :
  executeCommand now fuel (mkCommand "ECHO" []) (mkClientConn q false) false d = Panic
  /\ executeCommand now fuel (mkCommand "CONFIG" ["SET"; "dir"])
       (mkClientConn q false) false d
     = Panic.
Proof. split; destruct fuel; reflexivity. Qed.

End Transactions.

(** C1, an instance: the key "k" on the empty store. *)
Lemma exec_of_two_incr_on_the_empty_store :
  M emptyDB !! "k" = None
  /\ forall `{Collaborators} (now : Z),
       runSession now 1 (incrTwice "k") normalConn emptyDB
       = Ret ([okReply; queuedReply; queuedReply; respArray [okReply; okReply]],
              normalConn,
              setM (<["k" := mkKeyEntry (StringValue "2") None]> (M emptyDB)) emptyDB).
Proof.
  split; [reflexivity|].
  intros H now. apply (exec_of_two_incr_replies_OK_OK now 0 "k" emptyDB). reflexivity.
Defined.

(** C1 as stated fails: on the empty store the EXEC reply is the array of
    two simple strings OK, which is not the array of the integers 1 and 2. *)
Lemma exec_of_two_incr_is_not_the_integers :
  (forall `{Collaborators} (now : Z),
     runSession now 1 (incrTwice "k") normalConn emptyDB
     = Ret ([okReply; queuedReply; queuedReply; respArray [okReply; okReply]],
            normalConn, Add "k" "2" emptyDB))
  /\ respArray [okReply; okReply] <> respArray [respInt 1; respInt 2].
Proof.
  split; [intros H now; vm_compute; reflexivity | discriminate].
Qed.

(** C3, an instance: GET k in a session that has just seen MULTI. *)
Lemma queuing_a_get :
  isTransaction queuingConn = true
  /\ forall `{Collaborators} (now : Z) (fuel : nat),
       (ToLower "GET" <> "multi" /\ ToLower "GET" <> "exec" /\ ToLower "GET" <> "discard")
       /\ executeCommand now fuel (mkCommand "GET" ["k"]) queuingConn false emptyDB
          = Ret (queuedReply, mkClientConn [mkCommand "GET" ["k"]] true, emptyDB).
Proof.
  split; [reflexivity|].
  intros H now fuel. split; [repeat split; discriminate|].
  apply (queuing_appends_and_replies_QUEUED now fuel (mkCommand "GET" ["k"])
           queuingConn emptyDB); [reflexivity | discriminate ..].
Defined.

(** ** Arity and configuration *)

Section Handlers.
Context `{Collaborators}.
Variable now : Z.

(** C4, as the code has it.  TYPE, GET, KEYS, INCR and DELETE with a number
    of arguments other than one, and SET with a number of arguments other
    than two and four, reply with the error
    [ERR wrong number of arguments for '<name>' command], the name in lower
    case, and leave the keyspace and the session unchanged. *)
Theorem wrong_arity_is_reported_and_changes_nothing
    (fuel : nat) (c : Command) (clientConn : ClientConn) (context : bool) (d : DB) :
  executesNow clientConn context ->
  (ToLower (cmd c) ∈ ["type"; "get"; "keys"; "incr"; "delete"]
   /\ length (args c) <> 1%nat)
  \/ (ToLower (cmd c) = "set"
      /\ length (args c) <> 2%nat /\ length (args c) <> 4%nat) ->
  executeCommand now fuel c clientConn context d
  = Ret (wrongArity (ToLower (cmd c)), clientConn, d).
Proof.
  intros Hq [[Hin Hlen] | (Hn & H2 & H4)].
  - apply Nat.eqb_neq in Hlen.
    repeat (apply elem_of_cons in Hin as [Hn | Hin]);
      [| | | | | by apply elem_of_nil in Hin]; rewrite Hn.
    + rewrite dispatch_type by done. unfold handleTypeCommand. by rewrite Hlen.
    + rewrite dispatch_get by done. unfold handleGetCommand. by rewrite Hlen.
    + rewrite dispatch_keys by done. unfold handleKeysCommand. by rewrite Hlen.
    + rewrite dispatch_incr by done. unfold handleIncrCommand. by rewrite Hlen.
    + rewrite dispatch_delete by done. unfold handleDeleteCommand. by rewrite Hlen.
  - apply Nat.eqb_neq in H2, H4. rewrite Hn.
    rewrite dispatch_set by done. unfold handleSetCommand. by rewrite H2, H4.
Qed.

Local Ltac config_args :=
  rewrite dispatch_config by done;
  unfold handleConfigCommand;
  cbn [args length Nat.ltb Nat.leb index lookup list_lookup mbind Result_bind].

(** C5, as the code has it.  With a parameter name it does not know, CONFIG
    GET replies with the null array (not an error) and CONFIG SET replies
    with the error [ERR unsupported config parameter]; neither changes the
    store. *)
Theorem config_unknown_parameter
    (fuel : nat) (name sub param : string) (rest : list string)
    (clientConn : ClientConn) (context : bool) (d : DB) :
  ToLower name = "config" ->
  executesNow clientConn context ->
  (ToLower sub = "get" ->
   param ∉ ["dir"; "dbfilename"; "port"] ->
   executeCommand now fuel (mkCommand name (sub :: param :: rest)) clientConn context d
   = Ret (respNull Array, clientConn, d))
  /\ (ToLower sub = "set" ->
      param ∉ ["dir"; "dbfilename"] ->
      forall v,
        executeCommand now fuel (mkCommand name (sub :: param :: v :: rest))
          clientConn context d
        = Ret (resp Error "ERR unsupported config parameter", clientConn, d)).
Proof.
  intros Hn Hq. split.
  - intros Hs Hp. config_args. rewrite Hs. cbn [String.eqb Ascii.eqb Bool.eqb].
    unfold handleConfigGet.
    rewrite !eqb_neq_false; [reflexivity | ..]; intros ->; apply Hp; repeat constructor.
  - intros Hs Hp v. config_args. rewrite Hs. cbn [String.eqb Ascii.eqb Bool.eqb].
    unfold handleConfigSet.
    rewrite !eqb_neq_false; [reflexivity | ..]; intros ->; apply Hp; repeat constructor.
Qed.

(** C6, as the code has it.  CONFIG GET answers for dir, dbfilename and
    port with the name and the current value.  CONFIG SET stores the value
    and replies OK for dir and dbfilename; for port it replies with the
    error [ERR unsupported config parameter] and stores nothing. *)
Theorem config_get_three_parameters_set_two
    (fuel : nat) (name sub v : string) (rest : list string)
    (clientConn : ClientConn) (context : bool) (d : DB) :
  ToLower name = "config" ->
  executesNow clientConn context ->
  let run a := executeCommand now fuel (mkCommand name a) clientConn context d in
  (ToLower sub = "get" ->
   run (sub :: "dir" :: rest)
   = Ret (respArray [resp BulkString "dir"; resp BulkString (dir d)], clientConn, d)
   /\ run (sub :: "dbfilename" :: rest)
      = Ret (respArray [resp BulkString "dbfilename"; resp BulkString (dbfilename d)],
             clientConn, d)
   /\ run (sub :: "port" :: rest)
      = Ret (respArray [resp BulkString "port"; resp BulkString (port d)], clientConn, d))
  /\ (ToLower sub = "set" ->
      run (sub :: "dir" :: v :: rest) = Ret (resp SimpleString "OK", clientConn, setDir v d)
      /\ run (sub :: "dbfilename" :: v :: rest)
         = Ret (resp SimpleString "OK", clientConn, setDbfilename v d)
      /\ run (sub :: "port" :: v :: rest)
         = Ret (resp Error "ERR unsupported config parameter", clientConn, d)).
Proof.
  intros Hn Hq run. subst run. cbv beta.
  split; intros Hs; repeat split; config_args; rewrite Hs; reflexivity.
Qed.

(** C7, as the code has it.  DELETE with one argument replies with the
    simple string OK for every store, whether the key is present or not:
    the store is left as [db.Delete] leaves it, and what [db.Delete] returns
    does not reach the reply. *)
Theorem delete_replies_OK_present_or_absent
    (fuel : nat) (name key : string) (clientConn : ClientConn) (context : bool) (d : DB) :
  ToLower name = "delete" ->
  executesNow clientConn context ->
  executeCommand now fuel (mkCommand name [key]) clientConn context d
  = Ret (resp SimpleString "OK", clientConn, (Delete now key d).2).
Proof.
  intros Hn Hq. rewrite dispatch_delete by done. reflexivity.
Qed.

End Handlers.

(** C4, an instance: GET without a key. *)
Lemma wrong_arity_of_get :
  (executesNow normalConn false /\ length (@nil string) <> 1%nat)
  /\ forall `{Collaborators} (now : Z) (fuel : nat),
       ToLower "GET" ∈ ["type"; "get"; "keys"; "incr"; "delete"]
       /\ executeCommand now fuel (mkCommand "GET" []) normalConn false emptyDB
          = Ret (wrongArity "get", normalConn, emptyDB).
Proof.
  split; [split; [reflexivity | discriminate]|].
  intros H now fuel.
  assert (ToLower "GET" ∈ ["type"; "get"; "keys"; "incr"; "delete"]) as Hin
    by (vm_compute; repeat constructor).
  split; [exact Hin|].
  apply (wrong_arity_is_reported_and_changes_nothing now fuel (mkCommand "GET" [])
           normalConn false emptyDB); [reflexivity|].
  left. split; [exact Hin | discriminate].
Defined.

(** C4 as stated fails: PING with an argument is answered PONG, and CONFIG
    with one argument is answered with an error that does not quote the
    name. *)
Lemma ping_and_config_escape_the_arity_form :
  (forall `{Collaborators} (now : Z) (fuel : nat),
     executeCommand now fuel (mkCommand "PING" ["x"]) normalConn false emptyDB
     = Ret (resp SimpleString "PONG", normalConn, emptyDB)
     /\ executeCommand now fuel (mkCommand "CONFIG" ["GET"]) normalConn false emptyDB
        = Ret (resp Error "ERR wrong number of arguments for config command",
               normalConn, emptyDB))
  /\ resp SimpleString "PONG" <> wrongArity "ping"
  /\ resp Error "ERR wrong number of arguments for config command" <> wrongArity "config".
Proof.
  split; [intros H now fuel; split; destruct fuel; reflexivity|].
  split; discriminate.
Qed.

(** C5, an instance: the parameter maxmemory. *)
Lemma config_unknown_maxmemory :
  (executesNow normalConn false
   /\ ("maxmemory" ∉ ["dir"; "dbfilename"; "port"])
   /\ ("maxmemory" ∉ ["dir"; "dbfilename"]))
  /\ forall `{Collaborators} (now : Z) (fuel : nat),
       (ToLower "CONFIG" = "config" /\ ToLower "GET" = "get" /\ ToLower "SET" = "set")
       /\ executeCommand now fuel (mkCommand "CONFIG" ["GET"; "maxmemory"])
            normalConn false emptyDB
          = Ret (respNull Array, normalConn, emptyDB)
       /\ executeCommand now fuel (mkCommand "CONFIG" ["SET"; "maxmemory"; "1"])
            normalConn false emptyDB
          = Ret (resp Error "ERR unsupported config parameter", normalConn, emptyDB).
Proof.
  assert ("maxmemory" ∉ ["dir"; "dbfilename"; "port"]) as H3
    by (by apply not_elem_of_literals).
  assert ("maxmemory" ∉ ["dir"; "dbfilename"]) as H2
    by (by apply not_elem_of_literals).
  split; [repeat split; (reflexivity || assumption)|].
  intros H now fuel.
  split; [repeat split|]. split.
  - apply (proj1 (config_unknown_parameter now fuel "CONFIG" "GET" "maxmemory" []
                    normalConn false emptyDB eq_refl eq_refl) eq_refl H3).
  - apply (proj2 (config_unknown_parameter now fuel "CONFIG" "SET" "maxmemory" []
                    normalConn false emptyDB eq_refl eq_refl) eq_refl H2 "1").
Defined.

(** C5 as stated fails: CONFIG GET of a parameter the server does not know
    is answered with the null array, whose type is not Error. *)
Lemma config_get_unknown_is_not_an_error :
  (forall `{Collaborators} (now : Z) (fuel : nat),
     executeCommand now fuel (mkCommand "CONFIG" ["GET"; "maxmemory"])
       normalConn false emptyDB
     = Ret (respNull Array, normalConn, emptyDB))
  /\ Typ (respNull Array) <> Error.
Proof.
  split; [intros H now fuel; destruct fuel; reflexivity | discriminate].
Qed.

(** C6, an instance: the three parameters on the initial store. *)
Lemma config_on_the_initial_store :
  executesNow normalConn false
  /\ forall `{Collaborators} (now : Z) (fuel : nat),
       (ToLower "CONFIG" = "config" /\ ToLower "GET" = "get" /\ ToLower "SET" = "set")
       /\ executeCommand now fuel (mkCommand "CONFIG" ["GET"; "port"])
            normalConn false emptyDB
          = Ret (respArray [resp BulkString "port"; resp BulkString "6379"],
                 normalConn, emptyDB)
       /\ executeCommand now fuel (mkCommand "CONFIG" ["SET"; "dir"; "/data"])
            normalConn false emptyDB
          = Ret (okReply, normalConn, setDir "/data" emptyDB).
Proof.
  split; [reflexivity|].
  intros H now fuel. split; [repeat split|].
  pose proof (config_get_three_parameters_set_two now fuel "CONFIG" "GET" "/data" []
                normalConn false emptyDB eq_refl eq_refl) as [Hget _].
  pose proof (config_get_three_parameters_set_two now fuel "CONFIG" "SET" "/data" []
                normalConn false emptyDB eq_refl eq_refl) as [_ Hset].
  split.
  - exact (proj2 (proj2 (Hget eq_refl))).
  - exact (proj1 (Hset eq_refl)).
Defined.

(** C6 as stated fails: CONFIG SET port is answered with an error and the
    port of the store stays what it was. *)
Lemma config_set_port_is_refused :
  (forall `{Collaborators} (now : Z) (fuel : nat),
     executeCommand now fuel (mkCommand "CONFIG" ["SET"; "port"; "7000"])
       normalConn false emptyDB
     = Ret (resp Error "ERR unsupported config parameter", normalConn, emptyDB))
  /\ resp Error "ERR unsupported config parameter" <> okReply
  /\ port emptyDB <> "7000".
Proof.
  split; [intros H now fuel; destruct fuel; reflexivity|].
  split; discriminate.
Qed.

(** C7, an instance: DELETE k on a store that holds k. *)
Lemma delete_of_a_present_key :
  executesNow normalConn false
  /\ forall `{Collaborators} (now : Z) (fuel : nat),
     ToLower "DELETE" = "delete"
     /\ executeCommand now fuel (mkCommand "DELETE" ["k"]) normalConn false
          (Add "k" "v" emptyDB)
        = Ret (resp SimpleString "OK", normalConn,
               (Delete now "k" (Add "k" "v" emptyDB)).2).
Proof.
  split; [reflexivity|].
  intros H now fuel. split; [reflexivity|].
  apply (delete_replies_OK_present_or_absent now fuel "DELETE" "k" normalConn false
           (Add "k" "v" emptyDB)); reflexivity.
Defined.

(** C7 as stated fails: deleting a key that is present and deleting a key
    that is absent give the same reply and end in the same store, although
    [db.Delete] returns true in the first case and false in the second. *)
Lemma delete_reply_does_not_tell_present_from_absent :
  (forall `{Collaborators} (now : Z) (fuel : nat),
     executeCommand now fuel (mkCommand "DELETE" ["k"]) normalConn false
       (Add "k" "v" emptyDB)
     = Ret (okReply, normalConn, emptyDB)
     /\ executeCommand now fuel (mkCommand "DELETE" ["k"]) normalConn false emptyDB
        = Ret (okReply, normalConn, emptyDB))
  /\ (forall now : Z,
        (Delete now "k" (Add "k" "v" emptyDB)).1 = true
        /\ (Delete now "k" emptyDB).1 = false).
Proof.
  split.
  - intros H now fuel. split; destruct fuel; vm_compute; reflexivity.
  - intros now. split; vm_compute; reflexivity.
Qed.

(** ** Parsing *)

Lemma bulkArgs_Some (items : list RespData) (a : list string) :
  bulkArgs items = Some a <-> Forall isBulk items /\ a = Str <$> items.
Proof.
  revert a. induction items as [|item rest IH]; intros a; cbn [bulkArgs].
  - split; [intros [= <-]; by split | intros [_ ->]; done].
  - unfold isBulk in *. destruct (decide (Typ item = BulkString)) as [E|E].
    + rewrite bool_decide_eq_true_2 by done. cbn [negb].
      destruct (bulkArgs rest) as [a'|] eqn:Er; cbn [option_map].
      * destruct (proj1 (IH a') eq_refl) as [Hall ->].
        split; [intros [= <-]; split; [by constructor | done]
               | intros [_ ->]; done].
      * split; [done|]. intros [Hall _]. apply Forall_cons in Hall as [_ Hall].
        assert (None = Some (Str <$> rest)) as E' by (apply IH; by split).
        done.
    + rewrite bool_decide_eq_false_2 by done. cbn [negb].
      split; [done|]. intros [Hall _]. by apply Forall_cons in Hall as [? _].
Qed.

(** C8, as the code has it.  [parseCmd] succeeds exactly on the simple
    string PING, which parses to the command PING without arguments, and on
    an array with at least one element whose elements are all bulk strings,
    which parses to the first element's text as the name and the texts of
    the others as the arguments.  On every other value it fails. *)
Theorem parseCmd_succeeds_exactly_on_ping_or_bulk_array (r : RespData) (c : Command) :
  parseCmd r = Some c <->
  (Typ r = SimpleString /\ Str r = "PING" /\ c = mkCommand "PING" [])
  \/ (Typ r = Array
      /\ exists first rest,
           Arr r = first :: rest /\ Forall isBulk (first :: rest)
           /\ c = mkCommand (Str first) (Str <$> rest)).
Proof.
  unfold parseCmd.
  destruct (decide (Typ r = SimpleString)) as [Es|Es].
  - rewrite (bool_decide_eq_true_2 _ Es). cbn [andb].
    destruct (String.eqb (Str r) "PING") eqn:Ep.
    + apply String.eqb_eq in Ep. split.
      * intros [= <-]. by left.
      * intros [(_ & _ & ->) | [Ea _]]; [done | congruence].
    + apply String.eqb_neq in Ep.
      rewrite bool_decide_eq_false_2 by congruence. cbn [negb].
      split; [done|]. intros [(_ & ? & _) | [Ea _]]; [done | congruence].
  - rewrite (bool_decide_eq_false_2 _ Es). cbn [andb].
    destruct (decide (Typ r = Array)) as [Ea|Ea].
    + rewrite (bool_decide_eq_true_2 _ Ea). cbn [negb].
      destruct (Arr r) as [|first rest] eqn:El.
      * split; [done|]. intros [(? & _) | (_ & f & t & ? & _)]; done.
      * destruct (decide (Typ first = BulkString)) as [Eb|Eb].
        -- rewrite (bool_decide_eq_true_2 _ Eb). cbn [negb].
           destruct (bulkArgs rest) as [a|] eqn:Er; cbn [option_map].
           ++ apply bulkArgs_Some in Er as [Hall ->]. split.
              ** intros [= <-]. right. split; [done|].
                 exists first, rest. repeat split; [by constructor].
              ** intros [(? & _) | (_ & f & t & [= <- <-] & _ & ->)]; done.
           ++ split; [done|].
              intros [(? & _) | (_ & f & t & [= <- <-] & Hall & _)]; [done|].
              apply Forall_cons in Hall as [_ Hall].
              assert (bulkArgs rest = Some (Str <$> rest)) as E'
                by (apply bulkArgs_Some; by split).
              congruence.
        -- rewrite (bool_decide_eq_false_2 _ Eb). cbn [negb].
           split; [done|].
           intros [(? & _) | (_ & f & t & [= <- <-] & Hall & _)]; [done|].
           by apply Forall_cons in Hall as [? _].
    + rewrite (bool_decide_eq_false_2 _ Ea). cbn [negb].
      split; [done|]. intros [(? & _) | (? & _)]; done.
Qed.

(** C8 as stated fails: the simple string PING is not an array and
    [parseCmd] succeeds on it. *)
Lemma parseCmd_accepts_the_simple_string_PING :
  parseCmd (resp SimpleString "PING") = Some (mkCommand "PING" [])
  /\ Typ (resp SimpleString "PING") <> Array.
Proof. split; [reflexivity | discriminate]. Qed.

(** ** Names and keys *)

Section Names.
Context `{Collaborators}.
Variable now : Z.

Local Ltac both_sides lem :=
  rewrite !lem by (done || (cbn [lowered cmd]; by rewrite handled_name_is_lower));
  reflexivity.

(** C9, as the code has it.  The handler that runs is selected by the
    lower-cased name.  For a command that is executed (a control command, or
    any command when the session is not queuing or the call is a replay):
    under a name handled in command.go, every case variant has the outcome
    of the all-lowercase name (reply, keyspace and session); under a name
    handled outside command.go, every case variant and the all-lowercase name
    reach the same handler, each with the command as typed. *)
Theorem dispatch_is_case_insensitive
    (fuel : nat) (c : Command) (clientConn : ClientConn) (context : bool) (d : DB) :
  ToLower (cmd c) ∈ controlNames \/ executesNow clientConn context ->
  (ToLower (cmd c) ∈ handledInCommandGo ->
   executeCommand now fuel c clientConn context d
   = executeCommand now fuel (lowered c) clientConn context d)
  /\ (forall h, collaborator (ToLower (cmd c)) = Some h ->
      executeCommand now fuel c clientConn context d = keepConn clientConn (h c d)
      /\ executeCommand now fuel (lowered c) clientConn context d
         = keepConn clientConn (h (lowered c) d)).
Proof.
  intros Hrun. split.
  - intros Hin.
    assert (ToLower (cmd c) ∈ controlNames \/ executesNow clientConn context /\
            ToLower (cmd c) ∈ ["ping"; "echo"; "set"; "delete"; "get"; "save";
                               "config"; "keys"; "info"; "incr"; "type"])
      as [Hc | [Hq Hd]].
    { unfold handledInCommandGo, controlNames in *.
      repeat (apply elem_of_cons in Hin as [Hn | Hin]);
        [left; rewrite Hn; repeat constructor ..| | | | | | | | | | | |];
        try (by apply elem_of_nil in Hin);
        (destruct Hrun as [Hc | Hq]; [by left | right; split; [done|]]);
        rewrite Hn; repeat constructor. }
    + unfold controlNames in Hc.
      repeat (apply elem_of_cons in Hc as [Hn | Hc]); [| | | by apply elem_of_nil in Hc].
      * both_sides dispatch_multi.
      * both_sides dispatch_exec.
      * both_sides dispatch_discard.
    + repeat (apply elem_of_cons in Hd as [Hn | Hd]); [..| by apply elem_of_nil in Hd].
      * both_sides dispatch_ping.
      * both_sides dispatch_echo.
      * both_sides dispatch_set.
      * both_sides dispatch_delete.
      * both_sides dispatch_get.
      * both_sides dispatch_save.
      * both_sides dispatch_config.
      * both_sides dispatch_keys.
      * both_sides dispatch_info.
      * both_sides dispatch_incr.
      * both_sides dispatch_type.
  - intros h Hh.
    destruct Hrun as [Hc | Hq].
    + unfold controlNames in Hc.
      repeat (apply elem_of_cons in Hc as [Hn | Hc]); [| | | by apply elem_of_nil in Hc];
        rewrite Hn in Hh; discriminate.
    + split; apply dispatch_collaborator; try done.
      cbn [lowered cmd]. by rewrite (collaborator_name_is_lower _ _ Hh).
Qed.

(** C10.  KEYS with one argument: the reply is the same for every pattern
    and the keyspace is left as it was; with no key in [db.M] the reply is
    the null array; otherwise it is a non-null array that holds, once each,
    a bulk string for every key of [db.M] and nothing else. *)
Theorem keys_replies_every_key_whatever_the_pattern
    (fuel : nat) (name : string) (clientConn : ClientConn) (context : bool) (d : DB) :
  ToLower name = "keys" ->
  executesNow clientConn context ->
  exists reply,
    (forall pattern,
       executeCommand now fuel (mkCommand name [pattern]) clientConn context d
       = Ret (reply, clientConn, d))
    /\ (M d = ∅ -> reply = respNull Array)
    /\ (M d <> ∅ ->
        Typ reply = Array /\ IsNull reply = false /\ NoDup (Arr reply)
        /\ forall r, r ∈ Arr reply <-> exists k, r = resp BulkString k /\ is_Some (M d !! k)).
Proof.
  intros Hn Hq.
  exists (if decide (M d = ∅) then respNull Array
          else respArray (resp BulkString <$> rangeKeys (M d))).
  split; [|split].
  - intros pattern. rewrite dispatch_keys by done.
    rewrite handleKeysCommand_one_argument. reflexivity.
  - intros E. by rewrite decide_True.
  - intros E. rewrite decide_False by done.
    destruct (rangeKeys_spec (M d)) as [Hnd Hin].
    repeat split; try reflexivity.
    + cbn [Arr respArray]. apply NoDup_fmap_2; [|done].
      intros a b Hab. by inversion Hab.
    + cbn [Arr respArray]. rewrite list_elem_of_fmap.
      intros (k & -> & Hk). exists k. split; [done|]. by apply Hin.
    + cbn [Arr respArray]. rewrite list_elem_of_fmap.
      intros (k & -> & Hk). exists k. split; [done|]. by apply Hin.
Qed.

End Names.

(** C9, an instance: GeT k on a store that holds k. *)
Lemma get_under_a_mixed_case_name :
  executesNow normalConn false
  /\ forall `{Collaborators} (now : Z) (fuel : nat),
       ToLower "GeT" ∈ handledInCommandGo
       /\ executeCommand now fuel (mkCommand "GeT" ["k"]) normalConn false
            (Add "k" "v" emptyDB)
          = executeCommand now fuel (mkCommand "get" ["k"]) normalConn false
              (Add "k" "v" emptyDB).
Proof.
  split; [reflexivity|].
  intros H now fuel.
  assert (ToLower "GeT" ∈ handledInCommandGo) as Hin
    by (vm_compute; repeat constructor).
  split; [exact Hin|].
  exact (proj1 (dispatch_is_case_insensitive now fuel (mkCommand "GeT" ["k"]) normalConn
                  false (Add "k" "v" emptyDB) (or_intror eq_refl)) Hin).
Defined.

(** C9 as stated fails: the error for an unknown command quotes the name as
    typed, and a queued command keeps the name as typed, so FOO and foo, and
    GET and get in a transaction, do not have the same outcome. *)
Lemma the_name_as_typed_shows :
  (forall `{Collaborators} (now : Z) (fuel : nat),
     executeCommand now fuel (mkCommand "FOO" []) normalConn false emptyDB
     = Ret (resp Error "ERR unknown command 'FOO'", normalConn, emptyDB)
     /\ executeCommand now fuel (mkCommand "foo" []) normalConn false emptyDB
        = Ret (resp Error "ERR unknown command 'foo'", normalConn, emptyDB)
     /\ executeCommand now fuel (mkCommand "GET" ["k"]) queuingConn false emptyDB
        = Ret (queuedReply, mkClientConn [mkCommand "GET" ["k"]] true, emptyDB)
     /\ executeCommand now fuel (mkCommand "get" ["k"]) queuingConn false emptyDB
        = Ret (queuedReply, mkClientConn [mkCommand "get" ["k"]] true, emptyDB)
     /\ ToLower "FOO" = "foo" /\ ToLower "GET" = "get")
  /\ resp Error "ERR unknown command 'FOO'" <> resp Error "ERR unknown command 'foo'"
  /\ mkClientConn [mkCommand "GET" ["k"]] true <> mkClientConn [mkCommand "get" ["k"]] true.
Proof.
  split; [intros H now fuel; repeat split; destruct fuel; reflexivity|].
  repeat split; discriminate.
Qed.

(** C10, an instance: KEYS on a store of two keys. *)
Lemma keys_of_a_store_of_two :
  executesNow normalConn false
  /\ forall `{Collaborators} (now : Z) (fuel : nat),
     let d := Add "a" "1" (Add "b" "2" emptyDB) in
     ToLower "KEYS" = "keys"
     /\ exists reply,
       (forall pattern,
          executeCommand now fuel (mkCommand "KEYS" [pattern]) normalConn false d
          = Ret (reply, normalConn, d))
       /\ (M d = ∅ -> reply = respNull Array)
       /\ (M d <> ∅ ->
           Typ reply = Array /\ IsNull reply = false /\ NoDup (Arr reply)
           /\ forall r, r ∈ Arr reply
                        <-> exists k, r = resp BulkString k /\ is_Some (M d !! k)).
Proof.
  split; [reflexivity|].
  intros H now fuel d. split; [reflexivity|].
  apply (keys_replies_every_key_whatever_the_pattern now fuel "KEYS" normalConn false d);
    reflexivity.
Defined.

(** ** Further properties of command.go *)

Lemma bulkArgs_of_bulk (a : list string) : bulkArgs (resp BulkString <$> a) = Some a.
Proof.
  induction a as [|x a IH]; [done|].
  cbn [fmap list_fmap bulkArgs]. fold (fmap (M:=list) (resp BulkString)).
  cbn [Typ Str resp]. rewrite bool_decide_eq_true_2 by done.
  cbn [negb]. by rewrite IH.
Qed.

(** X1.  Parsing the request a client builds from a name and arguments
    (the array of bulk strings) gives back that name and those arguments. *)
Theorem parseCmd_of_a_request (c : Command) : parseCmd (requestOf c) = Some c.
Proof.
  destruct c as [n a]. unfold parseCmd, requestOf.
  cbn [Typ Str Arr respArray resp cmd args].
  rewrite (bool_decide_eq_false_2 (Array = SimpleString)) by done.
  rewrite !bool_decide_eq_true_2 by done.
  cbn [andb negb]. by rewrite bulkArgs_of_bulk.
Qed.

Lemma keepConn_Ret (clientConn : ClientConn) (m : Result (RespData * DB)) r conn' d' :
  keepConn clientConn m = Ret (r, conn', d') -> conn' = clientConn /\ m = Ret (r, d').
Proof.
  unfold keepConn. destruct m as [[r0 d0]| |]; cbn [mbind Result_bind]; [|done..].
  by intros [= -> -> ->].
Qed.


Lemma not_elem_eqb_false (s : string) (l : list string) :
  s ∉ l -> forall t, t ∈ l -> String.eqb s t = false.
Proof. intros Hs t Ht. apply String.eqb_neq. by intros ->. Qed.

Section Extras.
Context `{Collaborators}.
Variable now : Z.



(** X3.  CONFIG SET followed by CONFIG GET of the same parameter, dir or
    dbfilename, outside a transaction: the replies are OK and then the pair
    of the name and the value just set; the store differs from the initial
    one in that field alone. *)
Theorem config_set_then_get
    (fuel : nat) (name subSet subGet p v : string) (clientConn : ClientConn) (d : DB) :
  ToLower name = "config" ->
  ToLower subSet = "set" ->
  ToLower subGet = "get" ->
  isTransaction clientConn = false ->
  p ∈ ["dir"; "dbfilename"] ->
  runSession now fuel [mkCommand name [subSet; p; v]; mkCommand name [subGet; p]]
    clientConn d
  = Ret ([okReply; respArray [resp BulkString p; resp BulkString v]], clientConn,
         if String.eqb p "dir" then setDir v d else setDbfilename v d).
Proof.
  intros Hn Hs Hg Htx Hp.
  assert (executesNow clientConn false) as Hq by (unfold executesNow; by rewrite Htx).
  cbn [runSession].
  rewrite dispatch_config by done.
  unfold handleConfigCommand at 1.
  cbn [args length Nat.ltb Nat.leb index lookup list_lookup mbind Result_bind].
  rewrite Hs. cbn [String.eqb Ascii.eqb Bool.eqb].
  repeat (apply elem_of_cons in Hp as [-> | Hp]); [| | by apply elem_of_nil in Hp];
    cbn [handleConfigSet String.eqb Ascii.eqb Bool.eqb keepConn mbind Result_bind];
    rewrite dispatch_config by done;
    unfold handleConfigCommand;
    cbn [args length Nat.ltb Nat.leb index lookup list_lookup mbind Result_bind];
    rewrite Hg; reflexivity.
Qed.

(** X4.  Whatever its arguments, CONFIG never changes the keys of the store
    nor its port, and it changes the store at all only when it replies OK. *)
Theorem config_changes_dir_and_dbfilename_only
    (c : Command) (d d' : DB) (reply : RespData) :
  handleConfigCommand c d = Ret (reply, d') ->
  M d' = M d /\ port d' = port d /\ (reply <> okReply -> d' = d).
Proof.
  unfold handleConfigCommand.
  destruct (length (args c) <? 2)%nat; [by intros [= <- <-]|].
  destruct (index (args c) 0) as [sub| |]; cbn [mbind Result_bind]; [|done..].
  destruct (String.eqb (ToLower sub) "get").
  { destruct (index (args c) 1) as [p| |]; cbn [mbind Result_bind]; [|done..].
    by intros [= <- <-]. }
  destruct (String.eqb (ToLower sub) "set"); [|by intros [= <- <-]].
  destruct (index (args c) 1) as [p| |]; cbn [mbind Result_bind]; [|done..].
  destruct (index (args c) 2) as [v| |]; cbn [mbind Result_bind]; [|done..].
  unfold handleConfigSet.
  destruct (String.eqb p "dir"); [by intros [= <- <-]|].
  destruct (String.eqb p "dbfilename"); by intros [= <- <-].
Qed.

(** X5.  A command whose lower-cased name is none of the names the
    switches test for is answered, when executed, with the error that quotes
    the name as typed; session and store are unchanged. *)
Theorem unknown_command_is_reported
    (fuel : nat) (c : Command) (clientConn : ClientConn) (context : bool) (d : DB) :
  executesNow clientConn context ->
  ToLower (cmd c) ∉ knownNames ->
  executeCommand now fuel c clientConn context d
  = Ret (unknownCommand (cmd c), clientConn, d).
Proof.
  intros Hq Hn.
  pose proof (not_elem_eqb_false _ _ Hn) as Hk.
  destruct fuel; cbn [executeCommand]; cbv zeta;
    repeat match goal with
    | |- context [String.eqb (ToLower (cmd c)) ?lit] =>
        rewrite (Hk lit) by (unfold knownNames; repeat constructor)
    end;
    rewrite Hq; reflexivity.
Qed.

(** X6.  In the Queuing state a batch of commands, none of them a control
    command, is answered QUEUED once per command; the queue grows by exactly
    those commands in their order, and the store is untouched.  Nothing
    about a command is checked when it is queued. *)
Theorem queuing_a_batch
    (fuel : nat) (cmds : list Command) (clientConn : ClientConn) (d : DB) :
  isTransaction clientConn = true ->
  Forall (fun c => ToLower (cmd c) ∉ controlNames) cmds ->
  runSession now fuel cmds clientConn d
  = Ret (replicate (length cmds) queuedReply,
         mkClientConn (transactionQueue clientConn ++ cmds) true, d).
Proof.
  intros Htx Hall. revert clientConn Htx.
  induction Hall as [|c cmds Hc _ IH]; intros clientConn Htx.
  - cbn [runSession length replicate]. rewrite app_nil_r.
    destruct clientConn as [q b]. cbn in Htx. by subst.
  - cbn [runSession]. rewrite dispatch_queued by done.
    cbn [mbind Result_bind]. rewrite IH by done.
    cbn [mbind Result_bind transactionQueue length replicate].
    by rewrite <- app_assoc.
Qed.

(** X7.  A command that is not a control command never changes the
    transaction flag of the session, and when it is executed rather than
    queued it leaves the whole session as it was, whichever handler runs. *)
Theorem data_commands_leave_the_session
    (fuel : nat) (c : Command) (clientConn conn' : ClientConn) (context : bool)
    (d d' : DB) (r : RespData) :
  ToLower (cmd c) ∉ controlNames ->
  executeCommand now fuel c clientConn context d = Ret (r, conn', d') ->
  isTransaction conn' = isTransaction clientConn
  /\ (executesNow clientConn context -> conn' = clientConn).
Proof.
  intros Hn.
  pose proof (not_elem_eqb_false _ _ Hn) as Hk.
  assert (executeCommand now fuel c clientConn context d = Ret (r, conn', d') ->
          if isTransaction clientConn && negb context
          then isTransaction conn' = isTransaction clientConn
          else conn' = clientConn) as Hmain.
  { destruct fuel; cbn [executeCommand]; cbv zeta;
      rewrite !(Hk _) by (unfold controlNames; repeat constructor);
      (destruct (isTransaction clientConn && negb context); [by intros [= <- <- <-]|]);
      repeat match goal with
      | |- (if String.eqb ?a ?b then _ else _) = _ -> _ =>
          destruct (String.eqb a b);
          [ first [ by intros [= <- <- <-]
                  | by intros [-> _]%keepConn_Ret
                  | idtac ] | ]
      end;
      try (by intros [= <- <- <-]).
    all: try (destruct (index (args c) 0); cbn [mbind Result_bind]; [by intros [= <- <- <-] | done..]).
    all: try (destruct (SaveRDB d); by intros [= <- <- <-]). }
  intros Hrun. specialize (Hmain Hrun). unfold executesNow.
  destruct (isTransaction clientConn && negb context).
  - split; [done|]. discriminate.
  - subst. by split.
Qed.

(** X8.  SET always returns a reply.  The reply is OK exactly when there
    are two arguments, or four of which the third is px (in any case) and
    the fourth parses as an integer; otherwise it is one of two errors and
    the store is unchanged. *)
Theorem set_replies (c : Command) (d : DB) :
  exists reply d',
    handleSetCommand now c d = Ret (reply, d')
    /\ (reply = okReply
        <-> length (args c) = 2%nat
            \/ exists key v opt ms n,
                 args c = [key; v; opt; ms] /\ ToLower opt = "px" /\ Atoi ms = Some n)
    /\ (reply <> okReply ->
        d' = d
        /\ (reply = resp Error "wrong numeric value for expiry"
            \/ reply = wrongArity "set")).
Proof.
  unfold handleSetCommand.
  destruct (args c) as [|key [|v [|opt [|ms [|x rest]]]]];
    cbn [length Nat.eqb index lookup list_lookup mbind Result_bind].
  - eexists _, _. split; [done|]. split; [|by intros _; split; [|right]].
    split; [done|]. intros [? | (? & ? & ? & ? & ? & ? & _)]; done.
  - eexists _, _. split; [done|]. split; [|by intros _; split; [|right]].
    split; [done|]. intros [? | (? & ? & ? & ? & ? & ? & _)]; done.
  - eexists _, _. split; [done|]. split; [|done]. split; [by left | done].
  - eexists _, _. split; [done|]. split; [|by intros _; split; [|right]].
    split; [done|]. intros [? | (? & ? & ? & ? & ? & ? & _)]; done.
  - destruct (String.eqb (ToLower opt) "px") eqn:Ep.
    + apply String.eqb_eq in Ep. destruct (Atoi ms) as [n|] eqn:Ea.
      * eexists _, _. split; [done|]. split; [|done].
        split; [|done]. intros _. right. by exists key, v, opt, ms, n.
      * eexists _, _. split; [done|]. split; [|by intros _; split; [|left]].
        split; [done|]. intros [? | (? & ? & ? & ? & ? & [= <- <- <- <-] & _ & ?)]; [done|].
        congruence.
    + apply String.eqb_neq in Ep.
      eexists _, _. split; [done|]. split; [|by intros _; split; [|right]].
      split; [done|]. intros [? | (? & ? & ? & ? & ? & [= <- <- <- <-] & ? & _)]; done.
  - eexists _, _. split; [done|]. split; [|by intros _; split; [|right]].
    split; [done|]. intros [? | (? & ? & ? & ? & ? & ? & _)]; done.
Qed.

(** X9.  Whenever [handleCommand] returns, it has made exactly one call on
    the writer, and the session and the store are the ones [executeCommand]
    left. *)
Theorem handleCommand_writes_once
    (fuel : nat) (c : Command) (clientConn conn' : ClientConn) (d d' : DB)
    (wire wire' : list WireCall) :
  handleCommand now fuel c clientConn d wire = Ret (wire', conn', d') ->
  exists w r,
    wire' = wire ++ [w]
    /\ executeCommand now fuel c clientConn false d = Ret (r, conn', d').
Proof.
  unfold handleCommand.
  destruct (executeCommand now fuel c clientConn false d) as [[[r c1] d1]| |];
    cbn [mbind Result_bind]; [|done..].
  cbv zeta.
  assert (forall X : Result (list WireCall * ClientConn * DB),
            X = (if bool_decide (Typ r = Array) && (0 <? length (Arr r))%nat
                 then Ret (wire ++ [CallWriteArray (Arr r)], c1, d1)
                 else Ret (wire ++ [CallWrite r], c1, d1)) ->
            X = Ret (wire', conn', d') ->
            exists w r0, wire' = wire ++ [w] /\ Ret (r, c1, d1) = Ret (r0, conn', d'))
    as Hstd.
  { intros X ->. destruct (bool_decide (Typ r = Array) && (0 <? length (Arr r))%nat);
      intros [= <- <- <-]; by eexists _, _. }
  destruct (String.eqb (ToLower (cmd c)) "config"); [|by apply Hstd].
  destruct (index (args c) 0) as [sub| |]; cbn [mbind Result_bind]; [|done..].
  destruct (String.eqb (ToLower sub) "get"); [|by apply Hstd].
  unfold handleConfigGetResponse.
  destruct (index (args c) 1) as [p| |]; cbn [mbind Result_bind]; [|done..].
  destruct (bool_decide (Typ (handleConfigGet p d1) = Array));
    cbn [mbind Result_bind]; intros [= <- <- <-]; by eexists _, _.
Qed.

Lemma handleConfigGet_is_an_array (p : string) (d : DB) : Typ (handleConfigGet p d) = Array.
Proof. unfold handleConfigGet. by repeat case_match. Qed.

(** X10.  CONFIG GET sent inside a transaction is queued like any other
    command, and yet [handleCommand] does not write QUEUED: it writes the
    elements of the current answer of CONFIG GET at once. *)
Theorem config_get_in_a_transaction_is_answered_at_once
    (fuel : nat) (name sub p : string) (rest : list string)
    (clientConn : ClientConn) (d : DB) (wire : list WireCall) :
  isTransaction clientConn = true ->
  ToLower name = "config" ->
  ToLower sub = "get" ->
  let c := mkCommand name (sub :: p :: rest) in
  handleCommand now fuel c clientConn d wire
  = Ret (wire ++ [CallWriteArray (Arr (handleConfigGet p d))],
         mkClientConn (transactionQueue clientConn ++ [c]) true, d).
Proof.
  intros Htx Hn Hs c. unfold handleCommand.
  rewrite dispatch_queued
    by (done || (subst c; cbn [cmd]; rewrite Hn; by apply not_elem_of_literals)).
  cbn [mbind Result_bind]. subst c. cbn [cmd args]. rewrite Hn.
  cbn [String.eqb Ascii.eqb Bool.eqb index lookup list_lookup mbind Result_bind].
  rewrite Hs. cbn [String.eqb Ascii.eqb Bool.eqb].
  unfold handleConfigGetResponse.
  cbn [args index lookup list_lookup mbind Result_bind].
  rewrite handleConfigGet_is_an_array.
  rewrite bool_decide_eq_true_2 by done. reflexivity.
Qed.


(** X12.  KEYS with one argument, executed and passed through
    [handleCommand]: on a store without keys the null array goes to [Write];
    otherwise the bulk strings of the keys go to [WriteArray]. *)
Theorem keys_on_the_wire
    (fuel : nat) (name pattern : string) (clientConn : ClientConn) (d : DB)
    (wire : list WireCall) :
  ToLower name = "keys" ->
  isTransaction clientConn = false ->
  handleCommand now fuel (mkCommand name [pattern]) clientConn d wire
  = Ret (wire ++ [if decide (M d = ∅) then CallWrite (respNull Array)
                  else CallWriteArray (resp BulkString <$> rangeKeys (M d))],
         clientConn, d).
Proof.
  intros Hn Htx.
  assert (executesNow clientConn false) as Hq by (unfold executesNow; by rewrite Htx).
  unfold handleCommand. rewrite dispatch_keys by done.
  rewrite handleKeysCommand_one_argument.
  cbn [keepConn mbind Result_bind cmd]. cbv zeta. rewrite Hn.
  cbn [String.eqb Ascii.eqb Bool.eqb].
  destruct (decide (M d = ∅)) as [E|E]; [reflexivity|].
  cbn [Typ Arr respArray]. rewrite bool_decide_eq_true_2 by done.
  unfold rangeKeys. rewrite !length_fmap.
  destruct (map_to_list (M d)) eqn:El; [|reflexivity].
  apply map_to_list_empty_iff in El. contradiction.
Qed.

(** X13.  CONFIG GET, executed and passed through [handleCommand]: the
    writer receives, through [WriteArray], the elements of the answer.  For
    a parameter that is not dir, dbfilename or port the answer is the null
    array and the writer receives no element: the null flag does not reach
    it. *)
Theorem config_get_on_the_wire
    (fuel : nat) (name sub p : string) (rest : list string)
    (clientConn : ClientConn) (d : DB) (wire : list WireCall) :
  ToLower name = "config" ->
  ToLower sub = "get" ->
  isTransaction clientConn = false ->
  handleCommand now fuel (mkCommand name (sub :: p :: rest)) clientConn d wire
  = Ret (wire ++ [CallWriteArray (Arr (handleConfigGet p d))], clientConn, d)
  /\ (p ∉ ["dir"; "dbfilename"; "port"] ->
      handleConfigGet p d = respNull Array /\ Arr (handleConfigGet p d) = []).
Proof.
  intros Hn Hs Htx.
  assert (executesNow clientConn false) as Hq by (unfold executesNow; by rewrite Htx).
  split.
  - unfold handleCommand, handleConfigGetResponse. rewrite dispatch_config by done.
    unfold handleConfigCommand.
    cbn [cmd args length Nat.ltb Nat.leb index lookup list_lookup mbind Result_bind].
    rewrite Hs, Hn.
    cbn [String.eqb Ascii.eqb Bool.eqb keepConn index lookup list_lookup mbind Result_bind].
    rewrite handleConfigGet_is_an_array.
    rewrite bool_decide_eq_true_2 by done. reflexivity.
  - intros Hp. unfold handleConfigGet.
    rewrite !(not_elem_eqb_false _ _ Hp) by repeat constructor. by split.
Qed.

End Extras.


(** X3, an instance: dir set to /data on the initial store. *)
Lemma config_set_then_get_dir :
  (isTransaction normalConn = false /\ "dir" ∈ ["dir"; "dbfilename"])
  /\ forall `{Collaborators} (now : Z) (fuel : nat),
       (ToLower "CONFIG" = "config" /\ ToLower "SET" = "set" /\ ToLower "GET" = "get")
       /\ runSession now fuel
            [mkCommand "CONFIG" ["SET"; "dir"; "/data"]; mkCommand "CONFIG" ["GET"; "dir"]]
            normalConn emptyDB
          = Ret ([okReply; respArray [resp BulkString "dir"; resp BulkString "/data"]],
                 normalConn, setDir "/data" emptyDB).
Proof.
  assert ("dir" ∈ ["dir"; "dbfilename"]) as Hin by repeat constructor.
  split; [split; [reflexivity | exact Hin]|].
  intros H now fuel. split; [repeat split|].
  exact (config_set_then_get now fuel "CONFIG" "SET" "GET" "dir" "/data" normalConn emptyDB
           eq_refl eq_refl eq_refl eq_refl Hin).
Defined.

(** X4, an instance: CONFIG SET dbfilename. *)
Lemma config_set_dbfilename_keeps_the_rest :
  (forall `{Collaborators},
     handleConfigCommand (mkCommand "config" ["set"; "dbfilename"; "a.rdb"]) emptyDB
     = Ret (okReply, setDbfilename "a.rdb" emptyDB))
  /\ (forall `{Collaborators},
        M (setDbfilename "a.rdb" emptyDB) = M emptyDB
        /\ port (setDbfilename "a.rdb" emptyDB) = port emptyDB
        /\ (okReply <> okReply -> setDbfilename "a.rdb" emptyDB = emptyDB)).
Proof.
  split; [intros H; reflexivity|].
  intros H.
  exact (config_changes_dir_and_dbfilename_only
           (mkCommand "config" ["set"; "dbfilename"; "a.rdb"]) emptyDB
           (setDbfilename "a.rdb" emptyDB) okReply eq_refl).
Defined.

(** X5, an instance: DEL is not a name the switches test for. *)
Lemma del_is_an_unknown_command :
  executesNow normalConn false
  /\ forall `{Collaborators} (now : Z) (fuel : nat),
       (ToLower "DEL" ∉ knownNames)
       /\ executeCommand now fuel (mkCommand "DEL" ["k"]) normalConn false emptyDB
          = Ret (resp Error "ERR unknown command 'DEL'", normalConn, emptyDB).
Proof.
  split; [reflexivity|]. intros H now fuel.
  assert (ToLower "DEL" ∉ knownNames) as Hn by (by apply not_elem_of_literals).
  split; [exact Hn|].
  exact (unknown_command_is_reported now fuel (mkCommand "DEL" ["k"]) normalConn false
           emptyDB eq_refl Hn).
Defined.

(** X6, an instance: three commands queued, one of them ECHO without an
    argument and one of them unknown. *)
Lemma queuing_three_commands :
  isTransaction queuingConn = true
  /\ forall `{Collaborators} (now : Z) (fuel : nat),
       let cmds := [mkCommand "GET" ["k"]; mkCommand "ECHO" []; mkCommand "FOO" []] in
       Forall (fun c => ToLower (cmd c) ∉ controlNames) cmds
       /\ runSession now fuel cmds queuingConn emptyDB
          = Ret ([queuedReply; queuedReply; queuedReply], mkClientConn cmds true, emptyDB).
Proof.
  split; [reflexivity|]. intros H now fuel cmds.
  assert (Forall (fun c => ToLower (cmd c) ∉ controlNames) cmds) as Hall
    by (repeat constructor; by apply not_elem_of_literals).
  split; [exact Hall|].
  exact (queuing_a_batch now fuel cmds queuingConn emptyDB eq_refl Hall).
Defined.

(** X7, an instance: SET executed in a session that holds a queue. *)
Lemma set_leaves_the_session :
  (forall `{Collaborators} (now : Z) (fuel : nat),
     (ToLower "SET" ∉ controlNames)
     /\ executeCommand now fuel (mkCommand "SET" ["k"; "v"])
          (mkClientConn [mkCommand "GET" ["k"]] true) true emptyDB
        = Ret (okReply, mkClientConn [mkCommand "GET" ["k"]] true, Add "k" "v" emptyDB))
  /\ (forall `{Collaborators},
        isTransaction (mkClientConn [mkCommand "GET" ["k"]] true) = true
        /\ (executesNow (mkClientConn [mkCommand "GET" ["k"]] true) true ->
            mkClientConn [mkCommand "GET" ["k"]] true
            = mkClientConn [mkCommand "GET" ["k"]] true)).
Proof.
  assert (forall `{Collaborators} (now : Z) (fuel : nat),
            (ToLower "SET" ∉ controlNames)
            /\ executeCommand now fuel (mkCommand "SET" ["k"; "v"])
                 (mkClientConn [mkCommand "GET" ["k"]] true) true emptyDB
               = Ret (okReply, mkClientConn [mkCommand "GET" ["k"]] true,
                      Add "k" "v" emptyDB)) as Hrun.
  { intros H now fuel. split; [by apply not_elem_of_literals|].
    destruct fuel; reflexivity. }
  split; [exact Hrun|].
  intros H. destruct (Hrun H 0%Z 0%nat) as [Hn Hr].
  exact (data_commands_leave_the_session 0%Z 0%nat (mkCommand "SET" ["k"; "v"])
           (mkClientConn [mkCommand "GET" ["k"]] true)
           (mkClientConn [mkCommand "GET" ["k"]] true) true emptyDB
           (Add "k" "v" emptyDB) okReply Hn Hr).
Defined.

(** X9, an instance: PING handled on a fresh connection. *)
Lemma ping_is_written_once :
  (forall `{Collaborators} (now : Z) (fuel : nat),
     handleCommand now fuel (mkCommand "PING" []) normalConn emptyDB []
     = Ret ([CallWrite (resp SimpleString "PONG")], normalConn, emptyDB))
  /\ (forall `{Collaborators} (now : Z) (fuel : nat),
        exists w r,
          [CallWrite (resp SimpleString "PONG")] = [] ++ [w]
          /\ executeCommand now fuel (mkCommand "PING" []) normalConn false emptyDB
             = Ret (r, normalConn, emptyDB)).
Proof.
  assert (forall `{Collaborators} (now : Z) (fuel : nat),
            handleCommand now fuel (mkCommand "PING" []) normalConn emptyDB []
            = Ret ([CallWrite (resp SimpleString "PONG")], normalConn, emptyDB)) as Hrun
    by (intros H now fuel; destruct fuel; reflexivity).
  split; [exact Hrun|].
  intros H now fuel.
  exact (handleCommand_writes_once now fuel _ _ _ _ _ _ _ (Hrun H now fuel)).
Defined.

(** X10, an instance: CONFIG GET dir after MULTI. *)
Lemma config_get_dir_after_multi :
  isTransaction queuingConn = true
  /\ forall `{Collaborators} (now : Z) (fuel : nat),
       (ToLower "CONFIG" = "config" /\ ToLower "GET" = "get")
       /\ handleCommand now fuel (mkCommand "CONFIG" ["GET"; "dir"]) queuingConn emptyDB []
          = Ret ([CallWriteArray [resp BulkString "dir"; resp BulkString "/tmp"]],
                 mkClientConn [mkCommand "CONFIG" ["GET"; "dir"]] true, emptyDB).
Proof.
  split; [reflexivity|]. intros H now fuel. split; [split; reflexivity|].
  exact (config_get_in_a_transaction_is_answered_at_once now fuel "CONFIG" "GET" "dir" []
           queuingConn emptyDB [] eq_refl eq_refl eq_refl).
Defined.


(** X12, an instance: KEYS on the empty store. *)
Lemma keys_of_the_empty_store_on_the_wire :
  isTransaction normalConn = false
  /\ forall `{Collaborators} (now : Z) (fuel : nat),
       ToLower "KEYS" = "keys"
       /\ handleCommand now fuel (mkCommand "KEYS" ["*"]) normalConn emptyDB []
          = Ret ([CallWrite (respNull Array)], normalConn, emptyDB).
Proof.
  split; [reflexivity|]. intros H now fuel. split; [reflexivity|].
  exact (keys_on_the_wire now fuel "KEYS" "*" normalConn emptyDB [] eq_refl eq_refl).
Defined.

(** X13, an instance: CONFIG GET maxmemory. *)
Lemma config_get_maxmemory_on_the_wire :
  isTransaction normalConn = false
  /\ forall `{Collaborators} (now : Z) (fuel : nat),
       (ToLower "CONFIG" = "config" /\ ToLower "GET" = "get")
       /\ handleCommand now fuel (mkCommand "CONFIG" ["GET"; "maxmemory"]) normalConn
            emptyDB []
          = Ret ([CallWriteArray []], normalConn, emptyDB).
Proof.
  split; [reflexivity|]. intros H now fuel. split; [split; reflexivity|].
  exact (proj1 (config_get_on_the_wire now fuel "CONFIG" "GET" "maxmemory" [] normalConn
                  emptyDB [] eq_refl eq_refl eq_refl)).
Defined.
